(** * jina.logging.profile: timers and the profiling decorator

    A shallow embedding of [jina/logging/profile.py]:
    - [used_memory], the memory probe;
    - [profiling], the decorator and its [arg_wrapper];
    - [TimeDict], the stack-based accumulator of named timers;
    - [TimeContext], the single-shot scoped timer.

    Python code is embedded as functions over an explicit [World] (the clock,
    [os.environ], the [resource] module, the log sink, standard output) that
    return either a value or a raised exception.  Methods thread the
    receiver [self] as well, and a raise keeps whatever has been mutated
    before it, as in Python. *)

From stdpp Require Import base gmap strings list.
From Stdlib Require Import ZArith.

Local Open Scope string_scope.

(** ** Python values and exceptions *)

(** The exceptions the module can meet.  [UserError] stands for whatever a
    wrapped callable or a guarded block raises on its own. *)
Inductive exn :=
  | IndexError
  | AttributeError
  | ModuleNotFoundError
  | ZeroDivisionError
  | UserError (name : string).

Inductive Result (A : Type) :=
  | Returns (a : A)
  | Raises (e : exn).
Arguments Returns {A} a.
Arguments Raises {A} e.

(** The few dynamically typed values the module tests for truth. *)
Inductive pyval :=
  | PyNone
  | PyBool (b : bool)
  | PyStr (s : string).

(** Python truth value: [None] and [False] are false, a [str] is true exactly
    when it is not empty. *)
Definition truthy (v : pyval) : bool :=
  match v with
  | PyNone => false
  | PyBool b => b
  | PyStr s => negb (String.eqb s "")
  end.

(** ** The runtime the module runs on

    Floats are kept abstract: [float] with the three operations the module
    uses, never assumed associative or exact.  [perf_counter_at n] is what
    the [n]-th call of [time.perf_counter()] of the process returns. *)
Class Runtime := {
  float : Type;
  float_zero : float;                       (* 0.0, the default of defaultdict(float) *)
  float_add : float -> float -> float;
  float_sub : float -> float -> float;
  int_truediv : Z -> Z -> float;            (* int / int, divisor not 0 *)
  perf_counter_at : nat -> float;
  user_state : Type                         (* state owned by client code *)
}.

(** A Python number as the module handles them: [used_memory] returns the
    int [0] on one path and a float on the other. *)
Inductive pynum `{Runtime} :=
  | PyInt (z : Z)
  | PyFloat (x : float).

(** Formatting and colouring are external: ['%w.pf' % x] and termcolor's
    [colored]. *)
Class Formatting `{Runtime} := {
  format_f : nat -> nat -> pynum -> string;
  colored : string -> string -> string
}.

(** Modelled from the spec: [default_logger] and [profile_logger] are imported
    from the package's [__init__], which is not part of the sources at hand; the
    spec describes them as "the external logger" accepting leveled string
    messages and "a dedicated profiling logger".  [ClientLogger] is a logger
    handed in by client code. *)
Inductive Logger :=
  | default_logger
  | profile_logger
  | ClientLogger (name : string).

#[global] Instance Logger_eq_dec : EqDecision Logger.
Proof. solve_decision. Defined.

Inductive Level := INFO | WARNING.

Record LogRecord := {
  rec_logger : Logger;
  rec_level : Level;
  rec_message : string
}.

Record World `{Runtime} := {
  perf_reads : nat;                 (* calls of time.perf_counter() so far *)
  environ : gmap string string;     (* os.environ *)
  ru_maxrss : option Z;             (* None: module "resource" cannot be imported *)
  log_records : list LogRecord;     (* everything the loggers received, oldest first *)
  stdout : list string;             (* what print wrote, one entry per call *)
  client : user_state
}.

(** ** Computations *)

(** A module-level function: runs on the world. *)
Definition IO `{Runtime} (A : Type) : Type := World -> Result A * World.

(** A method: runs on the receiver and the world. *)
Definition Meth `{Runtime} (S A : Type) : Type := S -> World -> Result A * S * World.

Section Monads.
Context `{Runtime}.

Definition io_ret {A} (a : A) : IO A := fun w => (Returns a, w).

Definition io_bind {A B} (c : IO A) (k : A -> IO B) : IO B :=
  fun w =>
    match c w with
    | (Returns a, w') => k a w'
    | (Raises e, w') => (Raises e, w')
    end.

Definition io_raise {A} (e : exn) : IO A := fun w => (Raises e, w).

Definition meth_ret {S A} (a : A) : Meth S A := fun self w => (Returns a, self, w).

Definition meth_bind {S A B} (c : Meth S A) (k : A -> Meth S B) : Meth S B :=
  fun self w =>
    match c self w with
    | (Returns a, self', w') => k a self' w'
    | (Raises e, self', w') => (Raises e, self', w')
    end.

Definition meth_raise {S A} (e : exn) : Meth S A := fun self w => (Raises e, self, w).

(** A module-level call made from inside a method. *)
Definition lift {S A} (c : IO A) : Meth S A :=
  fun self w => let '(r, w') := c w in (r, self, w').

(** Read and update the receiver. *)
Definition getattr {S A} (f : S -> A) : Meth S A := fun self w => (Returns (f self), self, w).
Definition setattr {S} (f : S -> S) : Meth S unit := fun self w => (Returns tt, f self, w).
End Monads.

(** stdpp's monad notation, [x ← c; k] and [c;; k], for both. *)
#[global] Instance io_mret `{Runtime} : MRet IO := fun A a => io_ret a.
#[global] Instance io_mbind `{Runtime} : MBind IO := fun A B k c => io_bind c k.
#[global] Instance meth_mret `{Runtime} {S} : MRet (Meth S) := fun A a => meth_ret a.
#[global] Instance meth_mbind `{Runtime} {S} : MBind (Meth S) := fun A B k c => meth_bind c k.

(** ** World primitives *)

Section Primitives.
Context `{Formatting}.

Definition set_perf_reads (n : nat) (w : World) : World :=
  {| perf_reads := n; environ := environ w; ru_maxrss := ru_maxrss w;
     log_records := log_records w; stdout := stdout w; client := client w |}.

Definition set_log_records (l : list LogRecord) (w : World) : World :=
  {| perf_reads := perf_reads w; environ := environ w; ru_maxrss := ru_maxrss w;
     log_records := l; stdout := stdout w; client := client w |}.

Definition set_stdout (l : list string) (w : World) : World :=
  {| perf_reads := perf_reads w; environ := environ w; ru_maxrss := ru_maxrss w;
     log_records := log_records w; stdout := l; client := client w |}.

(** The world after one more reading of the clock. *)
Definition tick (w : World) : World := set_perf_reads (S (perf_reads w)) w.

(** [time.perf_counter()] *)
Definition perf_counter : IO float :=
  fun w => (Returns (perf_counter_at (perf_reads w)), tick w).

(** [logger.info(msg)], [logger.warning(msg)] *)
Definition emit (lg : Logger) (lv : Level) (msg : string) : IO unit :=
  fun w =>
    (Returns tt,
     set_log_records
       (log_records w ++ [{| rec_logger := lg; rec_level := lv; rec_message := msg |}]) w).

(** [print(text, end=e, flush=True)] *)
Definition print (text e : string) : IO unit :=
  fun w => (Returns tt, set_stdout (stdout w ++ [text ++ e]) w).

(** [os.environ.get(name, False)] *)
Definition environ_get (name : string) : IO pyval :=
  fun w =>
    (Returns match environ w !! name with
             | Some v => PyStr v
             | None => PyBool false
             end, w).

(** [import resource] followed by
    [resource.getrusage(resource.RUSAGE_SELF).ru_maxrss] *)
Definition import_resource_ru_maxrss : IO Z :=
  fun w =>
    match ru_maxrss w with
    | Some rss => (Returns rss, w)
    | None => (Raises ModuleNotFoundError, w)
    end.

(** [try: c except ModuleNotFoundError: h] *)
Definition try_except_ModuleNotFoundError {A} (c h : IO A) : IO A :=
  fun w =>
    match c w with
    | (Raises ModuleNotFoundError, w') => h w'
    | other => other
    end.

(** [a / b] on ints *)
Definition truediv (a b : Z) : IO pynum :=
  if decide (b = 0%Z) then io_raise ZeroDivisionError
  else io_ret (PyFloat (int_truediv a b)).
End Primitives.

(** ** [used_memory] *)

Definition dquote : string := String (Ascii.ascii_of_nat 34) EmptyString.
Definition tab : string := String (Ascii.ascii_of_nat 9) EmptyString.
Definition newline : string := String (Ascii.ascii_of_nat 10) EmptyString.

Definition resource_warning : string :=
  "module " ++ dquote ++ "resource" ++ dquote
  ++ " can not be found and you are likely running it on Windows".

Section UsedMemory.
Context `{Formatting}.

(** [def used_memory(unit: int = 1024 * 1024 * 1024) -> float] *)
Definition used_memory (unit : Z) : IO pynum :=
  try_except_ModuleNotFoundError
    (rss ← import_resource_ru_maxrss;
     truediv rss unit)
    (emit default_logger WARNING resource_warning;;
     mret (PyInt 0)).
End UsedMemory.

(** ** [profiling] *)

(** A Python function object: the decorator is documented as marking a
    function, and a function always carries [__qualname__]. *)
Record PyFunction `{Runtime} (Args R : Type) := {
  __qualname__ : string;
  __call__ : Args -> IO R
}.
Arguments __qualname__ {_ Args R} _.
Arguments __call__ {_ Args R} _ _.

Section Profiling.
Context `{Formatting} {Args R : Type}.

(** The closure [arg_wrapper] of [profiling], over [func] *)
Definition arg_wrapper (func : PyFunction Args R) (args : Args) : IO R :=
  flag ← environ_get "JINA_PROFILING";
  if truthy flag then
    start_t ← perf_counter;
    start_mem ← used_memory (1024 * 1024);
    r ← __call__ func args;
    now ← perf_counter;
    let elapsed := float_sub now start_t in
    end_mem ← used_memory (1024 * 1024);
    let level_prefix := "" in
    let mem_status :=
      "memory: " ++ format_f 4 3 start_mem ++ "MB -> " ++ format_f 4 3 end_mem ++ "MB" in
    emit profile_logger INFO
      (level_prefix ++ __qualname__ func ++ " time: "
       ++ format_f 3 3 (PyFloat elapsed) ++ "s " ++ mem_status);;
    mret r
  else
    r ← __call__ func args;
    mret r.

(** [def profiling(func)]: imports [profile_logger] and returns
    [arg_wrapper], which [functools.wraps] gives the name of [func]. *)
Definition profiling (func : PyFunction Args R) : IO (PyFunction Args R) :=
  mret {| __qualname__ := __qualname__ func; __call__ := arg_wrapper func |}.

(** *** The behaviour the specification describes

    The toggle: the flag is present in the environment with a true, that is
    non-empty, value. *)
Definition profiling_enabled (w : World) : bool :=
  match environ w !! "JINA_PROFILING" with
  | Some v => negb (String.eqb v "")
  | None => false
  end.

(** The lines the profiling logger has received. *)
Definition profile_lines (w : World) : list LogRecord :=
  filter (fun r => rec_logger r = profile_logger) (log_records w).

(** The memory probe in megabytes: the reading, or [0] and a warning. *)
Definition probe_mb (w : World) : pynum * World :=
  match ru_maxrss w with
  | Some rss => (PyFloat (int_truediv rss (1024 * 1024)), w)
  | None =>
      (PyInt 0,
       set_log_records
         (log_records w
          ++ [{| rec_logger := default_logger; rec_level := WARNING;
                 rec_message := resource_warning |}]) w)
  end.

(** The world the callable is started in on the measurement path: the start
    time and the start memory have been sampled. *)
Definition start_samples (w : World) : World := snd (probe_mb (tick w)).

Definition profile_line (func : PyFunction Args R) (elapsed : float)
    (start_mem end_mem : pynum) : LogRecord :=
  {| rec_logger := profile_logger; rec_level := INFO;
     rec_message :=
       __qualname__ func ++ " time: " ++ format_f 3 3 (PyFloat elapsed) ++ "s "
       ++ "memory: " ++ format_f 4 3 start_mem ++ "MB -> "
       ++ format_f 4 3 end_mem ++ "MB" |}.

(** The measurement path in the specification's words: sample start time
    and start memory, invoke the callable, and when it returns sample the
    elapsed time and the end memory and emit one info line; a failure of
    the callable propagates and nothing is reported. *)
Definition spec_measured_call (func : PyFunction Args R) (args : Args) : IO R :=
  fun w =>
    let start_t := perf_counter_at (perf_reads w) in
    let start_mem := fst (probe_mb (tick w)) in
    match __call__ func args (start_samples w) with
    | (Raises e, w2) => (Raises e, w2)
    | (Returns r, w2) =>
        let elapsed := float_sub (perf_counter_at (perf_reads w2)) start_t in
        let '(end_mem, w3) := probe_mb (tick w2) in
        (Returns r,
         set_log_records
           (log_records w3 ++ [profile_line func elapsed start_mem end_mem]) w3)
    end.
End Profiling.

(** ** [profiling] over any callable

    [profiling] accepts whatever can be called.  A function carries
    [__qualname__]; a [functools.partial] object or an instance with
    [__call__] does not, and loading the attribute raises
    [AttributeError]. *)
Module Callable.
Section Wrapper.
Context `{Formatting} {Args R : Type}.

Record obj := {
  __qualname__ : option string;
  __call__ : Args -> IO R
}.

(** [func.__qualname__] *)
Definition load___qualname__ (func : obj) : IO string :=
  match __qualname__ func with
  | Some name => io_ret name
  | None => io_raise AttributeError
  end.

(** The closure [arg_wrapper] of [profiling], over [func]; the attribute
    [func.__qualname__] is loaded when the message is formatted, after the
    call and both samples. *)
Definition arg_wrapper (func : obj) (args : Args) : IO R :=
  flag ← environ_get "JINA_PROFILING";
  if truthy flag then
    start_t ← perf_counter;
    start_mem ← used_memory (1024 * 1024);
    r ← __call__ func args;
    now ← perf_counter;
    let elapsed := float_sub now start_t in
    end_mem ← used_memory (1024 * 1024);
    let level_prefix := "" in
    let mem_status :=
      "memory: " ++ format_f 4 3 start_mem ++ "MB -> " ++ format_f 4 3 end_mem ++ "MB" in
    qualname ← load___qualname__ func;
    emit profile_logger INFO
      (level_prefix ++ qualname ++ " time: "
       ++ format_f 3 3 (PyFloat elapsed) ++ "s " ++ mem_status);;
    mret r
  else
    r ← __call__ func args;
    mret r.
End Wrapper.
End Callable.

(** A function seen as a callable. *)
Definition callable_of_function `{Runtime} {Args R : Type}
    (func : PyFunction Args R) : Callable.obj (Args := Args) (R := R) :=
  {| Callable.__qualname__ := Some (__qualname__ func);
     Callable.__call__ := __call__ func |}.

(** ** The [with] statement

    [with mgr: body]: [__enter__] runs, then the body; [__exit__] runs whether
    the body returned or raised, and an exception of the body is raised again
    unless [__exit__] returned a true value.  The statement yields [Some r]
    when the body returned [r] and [None] when its exception was suppressed. *)
Section With.
Context `{Runtime} {S R : Type}.

Definition with_stmt (enter : Meth S unit) (exit : option exn -> Meth S pyval)
    (body : IO R) : Meth S (option R) :=
  fun self w =>
    match enter self w with
    | (Raises e, self1, w1) => (Raises e, self1, w1)
    | (Returns _, self1, w1) =>
        match body w1 with
        | (Returns r, w2) =>
            match exit None self1 w2 with
            | (Returns _, self3, w3) => (Returns (Some r), self3, w3)
            | (Raises e', self3, w3) => (Raises e', self3, w3)
            end
        | (Raises e, w2) =>
            match exit (Some e) self1 w2 with
            | (Returns v, self3, w3) =>
                if truthy v then (Returns None, self3, w3) else (Raises e, self3, w3)
            | (Raises e', self3, w3) => (Raises e', self3, w3)
            end
        end
    end.
End With.

(** ** [class TimeDict] *)

(** [list.pop()]: the last element and the rest, nothing on an empty list. *)
Fixpoint list_pop {A} (l : list A) : option (list A * A) :=
  match l with
  | [] => None
  | x :: l' =>
      match list_pop l' with
      | None => Some ([], x)
      | Some (rest, y) => Some (x :: rest, y)
      end
  end.

Module TimeDict.
Section Methods.
Context `{Runtime}.

(** The four dictionaries are [defaultdict(float)]; the key stack is a
    Python list, its top at the end. *)
Record obj := {
  accum_time : gmap string float;
  first_start_time : gmap string float;
  start_time : gmap string float;
  end_time : gmap string float;
  _key_stack : list string;
  _pending_reset : bool
}.

Definition set_accum_time (f : gmap string float -> gmap string float) (self : obj) : obj :=
  {| accum_time := f (accum_time self); first_start_time := first_start_time self;
     start_time := start_time self; end_time := end_time self;
     _key_stack := _key_stack self; _pending_reset := _pending_reset self |}.

Definition set_first_start_time (f : gmap string float -> gmap string float) (self : obj) : obj :=
  {| accum_time := accum_time self; first_start_time := f (first_start_time self);
     start_time := start_time self; end_time := end_time self;
     _key_stack := _key_stack self; _pending_reset := _pending_reset self |}.

Definition set_start_time (f : gmap string float -> gmap string float) (self : obj) : obj :=
  {| accum_time := accum_time self; first_start_time := first_start_time self;
     start_time := f (start_time self); end_time := end_time self;
     _key_stack := _key_stack self; _pending_reset := _pending_reset self |}.

Definition set_end_time (f : gmap string float -> gmap string float) (self : obj) : obj :=
  {| accum_time := accum_time self; first_start_time := first_start_time self;
     start_time := start_time self; end_time := f (end_time self);
     _key_stack := _key_stack self; _pending_reset := _pending_reset self |}.

Definition set_key_stack (f : list string -> list string) (self : obj) : obj :=
  {| accum_time := accum_time self; first_start_time := first_start_time self;
     start_time := start_time self; end_time := end_time self;
     _key_stack := f (_key_stack self); _pending_reset := _pending_reset self |}.

Definition set_pending_reset (b : bool) (self : obj) : obj :=
  {| accum_time := accum_time self; first_start_time := first_start_time self;
     start_time := start_time self; end_time := end_time self;
     _key_stack := _key_stack self; _pending_reset := b |}.

(** [d[k]] on a [defaultdict(float)]: a missing key is inserted with [0.0]
    and that value returned. *)
Definition defaultdict_getitem
    (field : obj -> gmap string float)
    (set_field : (gmap string float -> gmap string float) -> obj -> obj)
    (k : string) : Meth obj float :=
  d ← getattr field;
  match d !! k with
  | Some v => meth_ret v
  | None => setattr (set_field <[k := float_zero]>);; meth_ret float_zero
  end.

(** [self._key_stack[-1]] *)
Definition key_stack_last : Meth obj string :=
  stack ← getattr _key_stack;
  match last stack with
  | Some k => meth_ret k
  | None => meth_raise IndexError
  end.

(** [self._key_stack.pop()] *)
Definition key_stack_pop : Meth obj string :=
  stack ← getattr _key_stack;
  match list_pop stack with
  | Some (rest, k) => setattr (set_key_stack (fun _ => rest));; meth_ret k
  | None => meth_raise IndexError
  end.

Definition __init__ : obj :=
  {| accum_time := ∅; first_start_time := ∅; start_time := ∅; end_time := ∅;
     _key_stack := []; _pending_reset := false |}.

(** [def __enter__(self)]; the receiver it returns is the threaded one. *)
Definition __enter__ : Meth obj unit :=
  _key ← key_stack_last;
  seen ← getattr (fun self : obj => bool_decide (is_Some (first_start_time self !! _key)));
  (if seen : bool then meth_ret tt
   else
     t ← lift perf_counter;
     setattr (set_first_start_time <[_key := t]>));;
  t ← lift perf_counter;
  setattr (set_start_time <[_key := t]>).

(** [def reset(self)] *)
Definition reset : Meth obj unit :=
  stack ← getattr _key_stack;
  if bool_decide (stack ≠ []) then
    setattr (set_pending_reset true)
  else
    setattr (set_accum_time (fun _ => ∅));;
    setattr (set_start_time (fun _ => ∅));;
    setattr (set_first_start_time (fun _ => ∅));;
    setattr (set_end_time (fun _ => ∅));;
    setattr (set_key_stack (fun _ => []));;
    setattr (set_pending_reset false).

(** [def __exit__(self, typ, value, traceback)].  In the augmented
    assignment the target [accum_time[_key]] is read first, then the right
    hand side, then the sum is stored. *)
Definition __exit__ (exc : option exn) : Meth obj pyval :=
  _key ← key_stack_pop;
  t ← lift perf_counter;
  setattr (set_end_time <[_key := t]>);;
  acc ← defaultdict_getitem accum_time set_accum_time _key;
  e ← defaultdict_getitem end_time set_end_time _key;
  s ← defaultdict_getitem start_time set_start_time _key;
  setattr (set_accum_time <[_key := float_add acc (float_sub e s)]>);;
  pending ← getattr _pending_reset;
  (if pending : bool then reset else meth_ret tt);;
  mret PyNone.

(** [def __call__(self, key, *args, **kwargs)] *)
Definition __call__ (key : string) : Meth obj unit :=
  setattr (set_key_stack (fun stack => (stack ++ [key])%list)).

(** *** The operations of the accumulator

    [begin(key)] is the entry of [with self(key):], that is [__call__]
    followed by [__enter__]; [end()] is its exit; [requestReset()] is
    [reset]. *)
Inductive op :=
  | Begin (key : string)
  | End
  | RequestReset.

Definition begin (key : string) : Meth obj unit :=
  __call__ key;;
  __enter__.

Definition step (o : op) : Meth obj unit :=
  match o with
  | Begin key => begin key
  | End => __exit__ None;; mret tt
  | RequestReset => reset
  end.

Fixpoint run (ops : list op) : Meth obj unit :=
  match ops with
  | [] => mret tt
  | o :: rest => step o;; run rest
  end.

(** [d[k]] as a client reads it: the value, [0.0] for a missing key. *)
Definition read (d : gmap string float) (k : string) : float :=
  default float_zero (d !! k).

(** The receiver after an [end()] that pops [k] off [rest ++ [k]] at time
    [t] without a reset, in one piece. *)
Definition after_exit (k : string) (rest : list string) (t : float) (self : obj) : obj :=
  {| accum_time :=
       <[k := float_add (read (accum_time self) k)
                (float_sub t (read (start_time self) k))]> (accum_time self);
     first_start_time := first_start_time self;
     start_time :=
       match start_time self !! k with
       | Some _ => start_time self
       | None => <[k := float_zero]> (start_time self)
       end;
     end_time := <[k := t]> (end_time self);
     _key_stack := rest;
     _pending_reset := _pending_reset self |}.

(** *** Measured intervals

    What a client sees of a run: each [begin(key)] and each [end()] with
    its timestamp, the last reading of the clock made while it ran. *)
Inductive event :=
  | Started (key : string) (t : float)
  | Stopped (t : float).

Definition stamp (o : op) (w' : World) : list event :=
  match o with
  | Begin key => [Started key (perf_counter_at (pred (perf_reads w')))]
  | End => [Stopped (perf_counter_at (pred (perf_reads w')))]
  | RequestReset => []
  end.

Fixpoint timeline (ops : list op) (self : obj) (w : World) : list event :=
  match ops with
  | [] => []
  | o :: rest =>
      match step o self w with
      | (Returns _, self', w') => stamp o w' ++ timeline rest self' w'
      | (Raises _, _, _) => []
      end
  end.

(** The intervals measured for [k], oldest first, in the specification's
    words: stops pair with starts in LIFO order ([opened] holds the keys of
    the open regions, innermost first), and a stop of [k] measures the stop
    timestamp minus the most recent start timestamp of [k] ([latest]). *)
Fixpoint intervals (k : string) (opened : list string) (latest : option float)
    (evs : list event) : list float :=
  match evs with
  | [] => []
  | Started key t :: evs' =>
      intervals k (key :: opened) (if decide (key = k) then Some t else latest) evs'
  | Stopped t :: evs' =>
      match opened with
      | [] => []
      | key :: opened' =>
          (if decide (key = k)
           then match latest with Some s => [float_sub t s] | None => [] end
           else [])
          ++ intervals k opened' latest evs'
      end
  end.

(** The sum as the code forms it: from [0.0], adding each interval in turn. *)
Definition total (xs : list float) : float := fold_left float_add xs float_zero.

(** The keys of the regions a sequence of operations leaves open, innermost
    first: a [begin] opens one, an [end] closes the innermost, and a reset
    request, taking effect only when none is open, never closes one. *)
Fixpoint open_keys (ops : list op) (opened : list string) : list string :=
  match ops with
  | [] => opened
  | Begin key :: rest => open_keys rest (key :: opened)
  | End :: rest => open_keys rest (tail opened)
  | RequestReset :: rest => open_keys rest opened
  end.
End Methods.
End TimeDict.

(** ** [class TimeContext] *)

Module TimeContext.
Section Methods.
Context `{Formatting}.

(** [logger] is a [logging.Logger] or [None]; a [Logger] object is true,
    as it defines neither [__bool__] nor [__len__].  The attribute
    [start] does not exist before [__enter__] has run. *)
Record obj := {
  _msg : string;
  _logger : option Logger;
  duration : pynum;
  start : option float
}.

Definition set_duration (d : pynum) (self : obj) : obj :=
  {| _msg := _msg self; _logger := _logger self; duration := d; start := start self |}.

Definition set_start (t : float) (self : obj) : obj :=
  {| _msg := _msg self; _logger := _logger self; duration := duration self; start := Some t |}.

(** [def __init__(self, msg, logger=None)] *)
Definition __init__ (msg : string) (logger : option Logger) : obj :=
  {| _msg := msg; _logger := logger; duration := PyInt 0; start := None |}.

(** [self.start], an [AttributeError] while the attribute is not set *)
Definition load_start : Meth obj float :=
  st ← getattr start;
  match st with
  | Some t => meth_ret t
  | None => meth_raise AttributeError
  end.

(** [def __enter__(self)] *)
Definition __enter__ : Meth obj unit :=
  t ← lift perf_counter;
  setattr (set_start t);;
  lg ← getattr _logger;
  match lg with
  | Some _ => meth_ret tt
  | None => msg ← getattr _msg; lift (print msg (" ..." ++ tab))
  end.

(** [def __exit__(self, typ, value, traceback)]; falling off the end of
    the body returns [None]. *)
Definition __exit__ (exc : option exn) : Meth obj pyval :=
  now ← lift perf_counter;
  st ← load_start;
  setattr (set_duration (PyFloat (float_sub now st)));;
  lg ← getattr _logger;
  match lg with
  | Some logger =>
      msg ← getattr _msg;
      d ← getattr duration;
      lift (emit logger INFO (msg ++ " takes " ++ format_f 3 3 d ++ " secs"))
  | None =>
      d ← getattr duration;
      lift (print (colored ("    [" ++ format_f 3 3 d ++ " secs]") "green") newline)
  end;;
  mret PyNone.

(** [with TimeContext(msg, logger): body], the use the docstring shows. *)
Definition scoped {R} (body : IO R) : Meth obj (option R) :=
  with_stmt __enter__ __exit__ body.
End Methods.
End TimeContext.

(** ** A concrete runtime

    Integers stand for the floats, the clock advances by ten per reading,
    and numbers are formatted as a fixed text: enough to run the definitions
    above on concrete inputs. *)
Definition ticks : Runtime := {|
  float := Z;
  float_zero := 0%Z;
  float_add := Z.add;
  float_sub := Z.sub;
  int_truediv := Z.div;
  perf_counter_at := fun n => (10 * Z.of_nat n)%Z;
  user_state := unit
|}.

Definition ticks_formatting : @Formatting ticks := {|
  format_f := fun _ _ _ => "#";
  colored := fun text _ => text
|}.

Definition world0 : @World ticks :=
  @Build_World ticks 0 ∅ (Some 4096%Z) [] [] tt.

(** A world in which the profiling toggle is set. *)
Definition world_on : @World ticks :=
  @Build_World ticks 0 {["JINA_PROFILING" := "1"]} (Some 4096%Z) [] [] tt.

(** A world without the [resource] module. *)
Definition world_windows : @World ticks :=
  @Build_World ticks 0 ∅ None [] [] tt.

(** A world with the toggle set and without the [resource] module. *)
Definition world_on_windows : @World ticks :=
  @Build_World ticks 0 {["JINA_PROFILING" := "1"]} None [] [] tt.

(** Two functions to wrap: one raises, one returns. *)
Definition boom : @PyFunction ticks unit unit :=
  {| __qualname__ := "boom"; __call__ := fun _ => io_raise (UserError "boom") |}.

Definition answer : @PyFunction ticks unit Z :=
  {| __qualname__ := "answer"; __call__ := fun _ => io_ret 42%Z |}.


(** * Proofs *)

Local Open Scope list_scope.

Ltac py_unfold :=
  unfold mbind, mret, meth_mbind, meth_mret, io_mbind, io_mret,
    meth_bind, meth_ret, meth_raise, io_bind, io_ret, io_raise,
    lift, getattr, setattr in *.

Section ListPop.
Context {A : Type}.
Implicit Types l : list A.

Lemma list_pop_snoc l x : list_pop (l ++ [x]) = Some (l, x).
Proof. induction l as [|y l IH]; simpl; [done|]. by rewrite IH. Qed.

Lemma list_pop_Some l rest x : list_pop l = Some (rest, x) ↔ l = rest ++ [x].
Proof.
  split; [|intros ->; apply list_pop_snoc].
  revert rest. induction l as [|y l IH]; intros rest Hp; simpl in Hp; [done|].
  destruct (list_pop l) as [[r z]|] eqn:E.
  - inversion Hp; subst. simpl. f_equal. by apply IH.
  - inversion Hp; subst. destruct l as [|a l]; [done|].
    simpl in E. destruct (list_pop l) as [[??]|]; done.
Qed.

Lemma list_pop_None l : list_pop l = None ↔ l = [].
Proof.
  split; [|by intros ->].
  destruct l as [|y l]; [done|]. simpl. destruct (list_pop l) as [[??]|]; done.
Qed.

Lemma last_snoc' l x : last (l ++ [x]) = Some x.
Proof. apply last_snoc. Qed.
End ListPop.

Section TimeDictSteps.
Context `{Runtime}.
Import TimeDict.
Implicit Types (self : obj) (w : World) (k : string).

Lemma reset_eq self w :
  reset self w =
    (Returns tt,
     if bool_decide (_key_stack self ≠ []) then set_pending_reset true self else __init__,
     w).
Proof.
  unfold reset. py_unfold. simpl.
  destruct (bool_decide (_key_stack self ≠ [])); reflexivity.
Qed.

Lemma timedict_call_eq key self w :
  __call__ key self w = (Returns tt, set_key_stack (fun st => st ++ [key])%list self, w).
Proof. reflexivity. Qed.

Lemma timedict_enter_eq self w rest k :
  _key_stack self = (rest ++ [k])%list →
  TimeDict.__enter__ self w =
    match first_start_time self !! k with
    | Some _ =>
        (Returns tt,
         set_start_time <[k := perf_counter_at (perf_reads w)]> self,
         tick w)
    | None =>
        (Returns tt,
         set_start_time <[k := perf_counter_at (S (perf_reads w))]>
           (set_first_start_time <[k := perf_counter_at (perf_reads w)]> self),
         tick (tick w))
    end.
Proof.
  intros Hst. unfold TimeDict.__enter__, key_stack_last. py_unfold. simpl.
  rewrite Hst, last_snoc. simpl.
  destruct (first_start_time self !! k) eqn:E; simpl.
  - reflexivity.
  - reflexivity.
Qed.

Lemma timedict_enter_empty self w :
  _key_stack self = [] → TimeDict.__enter__ self w = (Raises IndexError, self, w).
Proof.
  intros Hst. unfold TimeDict.__enter__, key_stack_last. py_unfold. simpl.
  by rewrite Hst.
Qed.

Lemma begin_eq key self w :
  begin key self w =
    match first_start_time self !! key with
    | Some _ =>
        (Returns tt,
         set_start_time <[key := perf_counter_at (perf_reads w)]>
           (set_key_stack (fun st => st ++ [key]) self),
         tick w)
    | None =>
        (Returns tt,
         set_start_time <[key := perf_counter_at (S (perf_reads w))]>
           (set_first_start_time <[key := perf_counter_at (perf_reads w)]>
              (set_key_stack (fun st => st ++ [key]) self)),
         tick (tick w))
    end.
Proof.
  unfold begin. unfold mbind at 1, meth_mbind, meth_bind.
  rewrite timedict_call_eq.
  rewrite (timedict_enter_eq _ _ (_key_stack self) key) by reflexivity.
  reflexivity.
Qed.

Lemma timedict_exit_eq exc self w rest k :
  _key_stack self = rest ++ [k] →
  TimeDict.__exit__ exc self w =
    (Returns PyNone,
     (if _pending_reset self && bool_decide (rest = [])
      then __init__
      else after_exit k rest (perf_counter_at (perf_reads w)) self),
     tick w).
Proof.
  intros Hst. unfold TimeDict.__exit__, key_stack_pop, defaultdict_getitem, reset, read.
  py_unfold. simpl. rewrite Hst, list_pop_snoc. simpl.
  destruct (accum_time self !! k) eqn:Ea; simpl; rewrite lookup_insert_eq; simpl;
    destruct (start_time self !! k) eqn:Es; simpl;
    destruct (_pending_reset self) eqn:Ep; simpl;
    destruct rest as [|r rest]; simpl;
    unfold after_exit, set_accum_time, read; simpl;
    rewrite ?Ea, ?Es, ?Ep, ?insert_insert_eq; reflexivity.
Qed.

Lemma timedict_exit_empty exc self w :
  _key_stack self = [] → TimeDict.__exit__ exc self w = (Raises IndexError, self, w).
Proof.
  intros Hst. unfold TimeDict.__exit__, key_stack_pop. py_unfold. simpl.
  by rewrite Hst.
Qed.

Lemma run_cons o ops self w :
  run (o :: ops) self w =
    match step o self w with
    | (Returns _, self', w') => run ops self' w'
    | (Raises e, self', w') => (Raises e, self', w')
    end.
Proof. reflexivity. Qed.

Lemma step_End_eq self w :
  step End self w =
    match TimeDict.__exit__ None self w with
    | (Returns _, self', w') => (Returns tt, self', w')
    | (Raises e, self', w') => (Raises e, self', w')
    end.
Proof. reflexivity. Qed.

(** Every step either raises and leaves the receiver as it was, or returns. *)
Lemma step_cases o self w :
  (∃ self' w', step o self w = (Returns tt, self', w'))
  ∨ (o = End ∧ _key_stack self = [] ∧ step o self w = (Raises IndexError, self, w)).
Proof.
  destruct o as [key| |].
  - left. change (step (Begin key)) with (begin key).
    rewrite begin_eq. destruct (first_start_time self !! key); eauto.
  - destruct (_key_stack self) as [|a l _] eqn:E using rev_ind.
    + right. rewrite step_End_eq, timedict_exit_empty by done. done.
    + left. rewrite step_End_eq, (timedict_exit_eq _ _ _ l a) by done. eauto.
  - left. change (step RequestReset) with reset. rewrite reset_eq. eauto.
Qed.

(** A property kept by every step is kept by every run. *)
Lemma run_invariant (P : obj → Prop) :
  (∀ o self w r self' w', P self → step o self w = (r, self', w') → P self') →
  ∀ ops self w r self' w', P self → run ops self w = (r, self', w') → P self'.
Proof.
  intros Hstep ops. induction ops as [|o ops IH]; intros self w r self' w' HP Hrun.
  - inversion Hrun; by subst.
  - rewrite run_cons in Hrun.
    destruct (step o self w) as [[[u|e] s1] w1] eqn:Es.
    + eapply IH; [|exact Hrun]. eapply Hstep; eauto.
    + inversion Hrun; subst. eapply Hstep; eauto.
Qed.

(** While a reset is pending some region is open. *)
Lemma pending_has_open_step o self w r self' w' :
  (_pending_reset self = true → _key_stack self ≠ []) →
  step o self w = (r, self', w') →
  _pending_reset self' = true → _key_stack self' ≠ [].
Proof.
  intros Hinv Hs.
  destruct o as [key| |].
  - change (step (Begin key)) with (begin key) in Hs. rewrite begin_eq in Hs.
    destruct (first_start_time self !! key); inversion Hs; subst; simpl;
      intros _; by destruct (_key_stack self).
  - destruct (_key_stack self) as [|a l _] eqn:E using rev_ind.
    + rewrite step_End_eq, timedict_exit_empty in Hs by done. inversion Hs; subst.
      intros Hp. specialize (Hinv Hp). congruence.
    + rewrite step_End_eq, (timedict_exit_eq _ _ _ l a) in Hs by done.
      inversion Hs; subst; clear Hs.
      destruct (_pending_reset self) eqn:Ep; simpl.
      * case_bool_decide; simpl; [done|]. by intros _.
      * rewrite Ep. done.
  - change (step RequestReset) with reset in Hs. rewrite reset_eq in Hs.
    inversion Hs; subst; clear Hs. case_bool_decide; simpl; [by intros _|done].
Qed.

Lemma pending_has_open ops w0 r self w :
  run ops __init__ w0 = (r, self, w) →
  _pending_reset self = true → _key_stack self ≠ [].
Proof.
  intros Hrun.
  refine (run_invariant (λ s, _pending_reset s = true → _key_stack s ≠ [])
            _ ops __init__ w0 r self w _ Hrun).
  - intros; eapply pending_has_open_step; eauto.
  - done.
Qed.

(** Every open region has a start timestamp. *)
Lemma open_started_step o self w r self' w' :
  (∀ key, key ∈ _key_stack self → is_Some (start_time self !! key)) →
  step o self w = (r, self', w') →
  ∀ key, key ∈ _key_stack self' → is_Some (start_time self' !! key).
Proof.
  intros Hinv Hs key.
  destruct o as [k| |].
  - change (step (Begin k)) with (begin k) in Hs. rewrite begin_eq in Hs.
    destruct (first_start_time self !! k); inversion Hs; subst; simpl;
      rewrite elem_of_app, list_elem_of_singleton;
      (intros [Hin| ->]; [|by rewrite lookup_insert_eq]);
      (destruct (decide (k = key)) as [->|Hne];
       [by rewrite lookup_insert_eq|rewrite lookup_insert_ne by done; auto]).
  - destruct (_key_stack self) as [|a l _] eqn:E using rev_ind.
    + rewrite step_End_eq, timedict_exit_empty in Hs by done. inversion Hs; subst.
      rewrite E. by intros ?%elem_of_nil.
    + rewrite step_End_eq, (timedict_exit_eq _ _ _ l a) in Hs by done.
      inversion Hs; subst; clear Hs.
      destruct (_pending_reset self && bool_decide (l = [])); simpl.
      * by intros ?%elem_of_nil.
      * intros Hin. assert (is_Some (start_time self !! key)) as Hk.
        { apply Hinv. rewrite elem_of_app. by left. }
        destruct (start_time self !! a); [done|].
        destruct (decide (a = key)) as [->|Hne];
          [by rewrite lookup_insert_eq|by rewrite lookup_insert_ne].
  - change (step RequestReset) with reset in Hs. rewrite reset_eq in Hs.
    inversion Hs; subst; clear Hs. case_bool_decide; simpl; [auto|].
    by intros ?%elem_of_nil.
Qed.

Lemma open_started ops w0 r self w :
  run ops __init__ w0 = (r, self, w) →
  ∀ key, key ∈ _key_stack self → is_Some (start_time self !! key).
Proof.
  intros Hrun.
  refine (run_invariant (λ s, ∀ key, key ∈ _key_stack s → is_Some (start_time s !! key))
            _ ops __init__ w0 r self w _ Hrun).
  - intros; eapply open_started_step; eauto.
  - by intros ? ?%elem_of_nil.
Qed.
End TimeDictSteps.

Section TimeDictClaims.
Context `{Runtime}.
Import TimeDict.
Implicit Types (self : obj) (w : World) (k : string).

(** C1.  In every state a sequence of operations can reach: a reset pending
    means that some region is still open; [reset] called while the stack is
    non-empty changes none of the four mappings nor the stack and only sets
    the flag; [reset] called on an empty stack, and the [end()] that closes
    the last open region while a reset is pending, leave the cleared state
    [__init__]: four empty mappings, an empty stack and the flag false; an
    [end()] that leaves regions open keeps the reset pending and clears
    nothing. *)
Theorem reset_deferred_until_stack_empty ops w0 r self w :
  run ops __init__ w0 = (r, self, w) →
  (_pending_reset self = true → _key_stack self ≠ []) ∧
  (_key_stack self ≠ [] →
     ∃ self', reset self w = (Returns tt, self', w) ∧
       accum_time self' = accum_time self ∧
       first_start_time self' = first_start_time self ∧
       start_time self' = start_time self ∧
       end_time self' = end_time self ∧
       _key_stack self' = _key_stack self ∧
       _pending_reset self' = true) ∧
  (_key_stack self = [] → reset self w = (Returns tt, __init__, w)) ∧
  (∀ exc k, _pending_reset self = true → _key_stack self = [k] →
     TimeDict.__exit__ exc self w = (Returns PyNone, __init__, tick w)) ∧
  (∀ exc k rest,
     _pending_reset self = true → _key_stack self = rest ++ [k] → rest ≠ [] →
     ∃ self', TimeDict.__exit__ exc self w = (Returns PyNone, self', tick w) ∧
       _key_stack self' = rest ∧
       _pending_reset self' = true ∧
       first_start_time self' = first_start_time self ∧
       (∀ j, is_Some (accum_time self !! j) → is_Some (accum_time self' !! j)) ∧
       (∀ j, is_Some (start_time self !! j) → is_Some (start_time self' !! j)) ∧
       (∀ j, is_Some (end_time self !! j) → is_Some (end_time self' !! j))).
Proof.
  intros Hrun. split; [by eapply pending_has_open|].
  split; [|split; [|split]].
  - intros Hne. eexists. rewrite reset_eq, bool_decide_true by done.
    split; [reflexivity|]. by simpl.
  - intros He. rewrite reset_eq, bool_decide_false; [done|]. by intros ?.
  - intros exc k Hp Hst. rewrite (timedict_exit_eq _ _ _ [] k) by done.
    by rewrite Hp.
  - intros exc k rest Hp Hst Hne. eexists.
    rewrite (timedict_exit_eq _ _ _ rest k) by done.
    rewrite Hp, bool_decide_false by done. simpl.
    split; [reflexivity|simpl]. repeat split; try done.
    + intros j Hj. destruct (decide (k = j)) as [->|];
        [by rewrite lookup_insert_eq|by rewrite lookup_insert_ne].
    + intros j Hj. destruct (start_time self !! k); [done|].
      destruct (decide (k = j)) as [->|];
        [by rewrite lookup_insert_eq|by rewrite lookup_insert_ne].
    + intros j Hj. destruct (decide (k = j)) as [->|];
        [by rewrite lookup_insert_eq|by rewrite lookup_insert_ne].
Qed.

(** C6.  [end()] on an empty key stack raises ([IndexError], from
    [list.pop]) before anything is written: the receiver and the world are
    those it was called with. *)
Theorem exit_on_empty_stack_raises exc self w :
  _key_stack self = [] →
  TimeDict.__exit__ exc self w = (Raises IndexError, self, w).
Proof. apply timedict_exit_empty. Qed.

(** C5.  A [begin(k)] always stores the fresh reading in [start_time[k]];
    it stores a reading in [first_start_time[k]] only when the key has no
    entry there, and an entry [first_start_time[k]] that exists is kept by
    every [begin] and by every other operation, unless the operation
    performs the full reset and leaves the cleared state [__init__]. *)
Theorem first_start_time_written_once k self w :
  (∃ self' w',
     begin k self w = (Returns tt, self', w') ∧
     start_time self' !! k = Some (perf_counter_at (pred (perf_reads w'))) ∧
     first_start_time self' !! k =
       Some (default (perf_counter_at (perf_reads w)) (first_start_time self !! k))) ∧
  (∀ v o r self' w',
     first_start_time self !! k = Some v →
     step o self w = (r, self', w') →
     first_start_time self' !! k = Some v
     ∨ (self' = __init__ ∧ (o = End ∨ o = RequestReset))).
Proof.
  split.
  - rewrite begin_eq. destruct (first_start_time self !! k) eqn:E;
      eexists _, _; (split; [reflexivity|]); simpl;
      rewrite ?lookup_insert_eq; done.
  - intros v o r self' w' Hv Hs. destruct o as [key| |].
    + left. change (step (Begin key)) with (begin key) in Hs. rewrite begin_eq in Hs.
      destruct (first_start_time self !! key) eqn:E; inversion Hs; subst; simpl; [done|].
      rewrite lookup_insert_ne; [done|]. intros ->. congruence.
    + destruct (_key_stack self) as [|a l _] eqn:E using rev_ind.
      * rewrite step_End_eq, timedict_exit_empty in Hs by done. inversion Hs; subst. by left.
      * rewrite step_End_eq, (timedict_exit_eq _ _ _ l a) in Hs by done.
        inversion Hs; subst; clear Hs.
        destruct (_pending_reset self && bool_decide (l = [])); [right|left]; auto.
    + change (step RequestReset) with reset in Hs. rewrite reset_eq in Hs.
      inversion Hs; subst; clear Hs. case_bool_decide; [left|right]; auto.
Qed.

(** C9.  In every state a sequence of operations can reach: [begin(k)]
    appends [k] to the stack, leaves [accum_time], [end_time] and the flag as
    they were, and changes no entry of [start_time] or [first_start_time]
    other than that of [k] (nor that of [first_start_time[k]] when it
    exists); an [end()] that pops [k] without clearing leaves [start_time],
    [first_start_time] and the flag as they were and changes no entry of
    [end_time] or [accum_time] other than that of [k]. *)
Theorem begin_end_frame ops w0 r self w :
  run ops __init__ w0 = (r, self, w) →
  (∀ k, ∃ self' w',
     begin k self w = (Returns tt, self', w') ∧
     _key_stack self' = _key_stack self ++ [k] ∧
     accum_time self' = accum_time self ∧
     end_time self' = end_time self ∧
     _pending_reset self' = _pending_reset self ∧
     (is_Some (first_start_time self !! k) →
        first_start_time self' = first_start_time self) ∧
     (∀ j, j ≠ k →
        start_time self' !! j = start_time self !! j ∧
        first_start_time self' !! j = first_start_time self !! j)) ∧
  (∀ exc k rest,
     _key_stack self = rest ++ [k] →
     _pending_reset self = false ∨ rest ≠ [] →
     ∃ self',
       TimeDict.__exit__ exc self w = (Returns PyNone, self', tick w) ∧
       _key_stack self' = rest ∧
       start_time self' = start_time self ∧
       first_start_time self' = first_start_time self ∧
       _pending_reset self' = _pending_reset self ∧
       (∀ j, j ≠ k →
          end_time self' !! j = end_time self !! j ∧
          accum_time self' !! j = accum_time self !! j)).
Proof.
  intros Hrun. split.
  - intros k. rewrite begin_eq.
    destruct (first_start_time self !! k) eqn:E; eexists _, _;
      (split; [reflexivity|]); simpl; repeat split; try done;
      try (by intros [? ?]); by rewrite lookup_insert_ne.
  - intros exc k rest Hst Hno. eexists.
    rewrite (timedict_exit_eq _ _ _ rest k) by done.
    assert (_pending_reset self && bool_decide (rest = []) = false) as ->.
    { destruct Hno as [->|Hne]; [done|]. rewrite (bool_decide_false _ Hne).
      apply andb_false_r. }
    split; [reflexivity|]. simpl.
    destruct (open_started _ _ _ _ _ Hrun k) as [s Hs].
    { rewrite Hst, elem_of_app, list_elem_of_singleton. by right. }
    rewrite Hs. repeat split; try done; by rewrite lookup_insert_ne.
Qed.
End TimeDictClaims.

Section Accumulation.
Context `{Runtime}.
Import TimeDict.
Implicit Types (self : obj) (w : World) (k : string).

Lemma timeline_cons o ops self w :
  timeline (o :: ops) self w =
    match step o self w with
    | (Returns _, self', w') => stamp o w' ++ timeline ops self' w'
    | (Raises _, _, _) => []
    end.
Proof. reflexivity. Qed.

Lemma begin_start key self w :
  ∃ self' w',
    begin key self w = (Returns tt, self', w') ∧
    _key_stack self' = _key_stack self ++ [key] ∧
    _pending_reset self' = _pending_reset self ∧
    accum_time self' = accum_time self ∧
    start_time self' = <[key := perf_counter_at (pred (perf_reads w'))]> (start_time self).
Proof.
  rewrite begin_eq. destruct (first_start_time self !! key); eexists _, _; done.
Qed.

Lemma accum_time_intervals_from k ops :
  ∀ self w self' w' opened latest,
    Forall (λ o, o ≠ RequestReset) ops →
    _pending_reset self = false →
    _key_stack self = rev opened →
    (k ∈ opened → is_Some latest) →
    (∀ s, latest = Some s → start_time self !! k = Some s) →
    run ops self w = (Returns tt, self', w') →
    read (accum_time self') k =
      fold_left float_add (intervals k opened latest (timeline ops self w))
        (read (accum_time self) k).
Proof.
  induction ops as [|o ops IH]; intros self w self' w' opened latest Hops Hp Hst Hin Hlat Hrun.
  - inversion Hrun; subst. reflexivity.
  - apply Forall_cons in Hops as [Ho Hops].
    rewrite run_cons in Hrun. rewrite timeline_cons.
    destruct o as [key| |]; [| |done].
    + change (step (Begin key)) with (begin key) in *.
      destruct (begin_start key self w) as (s1 & w1 & Hb & Hst1 & Hp1 & Hacc1 & Hstart1).
      rewrite Hb in *. simpl. rewrite <- Hacc1.
      apply (IH s1 w1 self' w' (key :: opened)); [done|congruence|..|exact Hrun].
      * simpl. congruence.
      * intros Hk. destruct (decide (key = k)); [by eexists|].
        apply Hin. apply elem_of_cons in Hk as [?|?]; [congruence|done].
      * intros s. rewrite Hstart1. destruct (decide (key = k)) as [->|Hne].
        -- intros [= <-]. by rewrite lookup_insert_eq.
        -- intros Hs. rewrite lookup_insert_ne by done. auto.
    + destruct opened as [|key opened].
      { rewrite step_End_eq, timedict_exit_empty in Hrun by done. done. }
      simpl in Hst.
      rewrite step_End_eq, (timedict_exit_eq _ _ _ (rev opened) key) in * by done.
      rewrite Hp in *. simpl in *.
      rewrite fold_left_app.
      set (t := perf_counter_at (perf_reads w)) in *.
      rewrite (IH (after_exit key (rev opened) t self) (tick w) self' w' opened latest);
        [|done|done|done|..|exact Hrun].
      * f_equal. destruct (decide (key = k)) as [->|Hne].
        -- destruct Hin as [s Hs]; [by left|]. subst latest. simpl.
           unfold read at 1. rewrite lookup_insert_eq. simpl.
           unfold read at 2. by rewrite (Hlat s eq_refl).
        -- simpl. unfold read at 1. by rewrite lookup_insert_ne.
      * intros Hk. apply Hin. by right.
      * intros s Hs. specialize (Hlat s Hs). simpl.
        destruct (start_time self !! key) eqn:Ek; [done|].
        rewrite lookup_insert_ne; [done|]. intros ->. congruence.
Qed.

(** C2.  For a sequence of [begin]/[end] operations on a fresh accumulator
    that runs to its end (so that every [end()] finds an open region),
    [accum_time[k]] is the sum of the intervals measured for [k], each the
    timestamp of a stop of [k] minus the most recent start timestamp of
    [k], added in turn from [0.0]. *)
Theorem accum_time_sums_intervals k ops w0 self w :
  Forall (λ o, o ≠ RequestReset) ops →
  run ops __init__ w0 = (Returns tt, self, w) →
  read (accum_time self) k = total (intervals k [] None (timeline ops __init__ w0)).
Proof.
  intros Hops Hrun. unfold total.
  rewrite (accum_time_intervals_from k ops __init__ w0 self w [] None); try done.
  by intros ?%elem_of_nil.
Qed.
End Accumulation.


Section UsedMemoryFacts.
Context `{Formatting}.
Implicit Types (w : World).

Lemma used_memory_eq unit w :
  unit ≠ 0%Z →
  used_memory unit w =
    match ru_maxrss w with
    | Some rss => (Returns (PyFloat (int_truediv rss unit)), w)
    | None =>
        (Returns (PyInt 0),
         set_log_records
           (log_records w
            ++ [{| rec_logger := default_logger; rec_level := WARNING;
                   rec_message := resource_warning |}]) w)
    end.
Proof.
  intros Hu. unfold used_memory, try_except_ModuleNotFoundError, import_resource_ru_maxrss,
    truediv, emit.
  py_unfold. destruct (ru_maxrss w) as [rss|]; [|reflexivity].
  destruct (decide (unit = 0%Z)); [done|reflexivity].
Qed.

Lemma used_memory_mb w : used_memory (1024 * 1024) w = (Returns (probe_mb w).1, (probe_mb w).2).
Proof.
  rewrite used_memory_eq by done. unfold probe_mb.
  destruct (ru_maxrss w); reflexivity.
Qed.

(** C7.  For a positive unit: when the [resource] module cannot be
    imported, [used_memory] returns the int [0] and the only effect is one
    warning record appended for [default_logger]; when it can, [used_memory]
    returns the peak resident set size divided by the unit and has no
    effect at all.  It raises in neither case. *)
Theorem used_memory_contract unit w :
  (0 < unit)%Z →
  match ru_maxrss w with
  | None =>
      used_memory unit w =
        (Returns (PyInt 0),
         set_log_records
           (log_records w
            ++ [{| rec_logger := default_logger; rec_level := WARNING;
                   rec_message := resource_warning |}]) w)
  | Some rss => used_memory unit w = (Returns (PyFloat (int_truediv rss unit)), w)
  end.
Proof.
  intros Hu. rewrite used_memory_eq by (intros ->; done).
  destruct (ru_maxrss w); reflexivity.
Qed.
End UsedMemoryFacts.

Section ProfilingFacts.
Context `{Formatting} {Args R : Type}.
Implicit Types (w : World) (func : PyFunction Args R) (args : Args).

Lemma truthy_environ_get w :
  truthy match environ w !! "JINA_PROFILING" with
         | Some v => PyStr v
         | None => PyBool false
         end = profiling_enabled w.
Proof. unfold profiling_enabled. by destruct (environ w !! "JINA_PROFILING"). Qed.

(** The wrapper takes the measurement path of the specification when the
    toggle is on, and is the plain call when it is off. *)
Lemma arg_wrapper_eq func args w :
  arg_wrapper func args w =
    if profiling_enabled w then spec_measured_call func args w
    else __call__ func args w.
Proof.
  unfold arg_wrapper, environ_get. py_unfold.
  rewrite truthy_environ_get. destruct (profiling_enabled w).
  - unfold spec_measured_call, start_samples, perf_counter, emit.
    rewrite used_memory_mb.
    destruct (__call__ func args (probe_mb (tick w)).2) as [[r|e] w2]; [|reflexivity].
    rewrite used_memory_mb. destruct (probe_mb (tick w2)) as [m w3]. reflexivity.
  - by destruct (__call__ func args w) as [[r|e] w2].
Qed.

Lemma profile_lines_set_log l w :
  profile_lines (set_log_records l w) = filter (λ r, rec_logger r = profile_logger) l.
Proof. reflexivity. Qed.

Lemma profile_lines_probe_mb w : profile_lines (probe_mb w).2 = profile_lines w.
Proof.
  unfold probe_mb. destruct (ru_maxrss w); [done|]. simpl.
  rewrite profile_lines_set_log, filter_app. unfold profile_lines.
  rewrite filter_cons_False, filter_nil by done. apply app_nil_r.
Qed.

Lemma profile_lines_tick w : profile_lines (tick w) = profile_lines w.
Proof. reflexivity. Qed.

(** C3.  The wrapper [profiling] returns is the same in whatever world the
    decorator is applied, and applying it changes nothing; each call of the
    wrapper looks [JINA_PROFILING] up in the environment of the world it is
    called in: when the flag is there with a non-empty value the call is the
    measured call, and when it is missing or empty the call is the plain
    call of [func]. *)
Theorem toggle_read_at_each_call func :
  ∃ wrapped,
    (∀ w_wrap, profiling func w_wrap = (Returns wrapped, w_wrap)) ∧
    ∀ args w,
      __call__ wrapped args w =
        match environ w !! "JINA_PROFILING" with
        | Some v =>
            if String.eqb v "" then __call__ func args w
            else spec_measured_call func args w
        | None => __call__ func args w
        end.
Proof.
  eexists. split; [reflexivity|]. intros args w. simpl.
  rewrite arg_wrapper_eq. unfold profiling_enabled.
  destruct (environ w !! "JINA_PROFILING") as [v|]; [|done].
  by destruct (String.eqb v "").
Qed.
End ProfilingFacts.

Section CallableFacts.
Context `{Formatting} {Args R : Type}.
Implicit Types (w : World) (func : Callable.obj (Args := Args) (R := R)) (args : Args).

(** The wrapper over any callable, case by case. *)
Lemma callable_arg_wrapper_eq func args w :
  Callable.arg_wrapper func args w =
    if profiling_enabled w then
      match Callable.__call__ func args (start_samples w) with
      | (Raises e, w2) => (Raises e, w2)
      | (Returns r, w2) =>
          match Callable.__qualname__ func with
          | Some name =>
              (Returns r,
               set_log_records
                 (log_records (probe_mb (tick w2)).2
                  ++ [profile_line {| __qualname__ := name; __call__ := Callable.__call__ func |}
                        (float_sub (perf_counter_at (perf_reads w2))
                           (perf_counter_at (perf_reads w)))
                        (probe_mb (tick w)).1 (probe_mb (tick w2)).1])
                 (probe_mb (tick w2)).2)
          | None => (Raises AttributeError, (probe_mb (tick w2)).2)
          end
      end
    else Callable.__call__ func args w.
Proof.
  unfold Callable.arg_wrapper, Callable.load___qualname__, environ_get. py_unfold.
  rewrite truthy_environ_get. destruct (profiling_enabled w).
  - unfold start_samples, perf_counter, emit.
    rewrite used_memory_mb.
    destruct (Callable.__call__ func args (probe_mb (tick w)).2) as [[r|e] w2]; [|reflexivity].
    rewrite used_memory_mb.
    destruct (Callable.__qualname__ func); reflexivity.
  - by destruct (Callable.__call__ func args w) as [[r|e] w2].
Qed.

(** On a function the wrapper is [arg_wrapper]. *)
Lemma callable_arg_wrapper_of_function (f : PyFunction Args R) args w :
  Callable.arg_wrapper (callable_of_function f) args w = arg_wrapper f args w.
Proof.
  rewrite callable_arg_wrapper_eq, arg_wrapper_eq.
  destruct (profiling_enabled w); [|reflexivity].
  unfold spec_measured_call. simpl.
  destruct (__call__ f args (start_samples w)) as [[r|e] w2]; [|reflexivity].
  by destruct (probe_mb (tick w2)).
Qed.

End CallableFacts.


Section TimeContextFacts.
Context `{Formatting}.
Import TimeContext.
Implicit Types (self : obj) (w : World).

Lemma timecontext_enter_eq self w :
  TimeContext.__enter__ self w =
    (Returns tt, set_start (perf_counter_at (perf_reads w)) self,
     match _logger self with
     | Some _ => tick w
     | None => set_stdout (stdout w ++ [(_msg self ++ (" ..." ++ tab))%string]) (tick w)
     end).
Proof.
  unfold TimeContext.__enter__. py_unfold. simpl. by destruct (_logger self).
Qed.

Lemma timecontext_exit_eq exc self w st :
  start self = Some st →
  TimeContext.__exit__ exc self w =
    let d := PyFloat (float_sub (perf_counter_at (perf_reads w)) st) in
    (Returns PyNone, set_duration d self,
     match _logger self with
     | Some logger =>
         set_log_records
           (log_records w
            ++ [{| rec_logger := logger; rec_level := INFO;
                   rec_message := (_msg self ++ " takes " ++ format_f 3 3 d ++ " secs")%string |}])
           (tick w)
     | None =>
         set_stdout
           (stdout w
            ++ [(colored ("    [" ++ format_f 3 3 d ++ " secs]") "green" ++ newline)%string])
           (tick w)
     end).
Proof.
  intros Hst. unfold TimeContext.__exit__, load_start. py_unfold. simpl.
  rewrite Hst. simpl. by destruct (_logger self).
Qed.

Lemma timecontext_exit_no_start exc self w :
  start self = None →
  TimeContext.__exit__ exc self w = (Raises AttributeError, self, tick w).
Proof.
  intros Hst. unfold TimeContext.__exit__, load_start. py_unfold. simpl.
  by rewrite Hst.
Qed.

(** C8.  For every use [with TimeContext(...): body], whether the body
    returns or raises: the duration stored on the instance is the reading of
    the clock at exit minus the reading at entry, and exit reports it
    exactly once, as one info record "<msg> takes <duration, %3.3f> secs" on
    the logger when there is one (standard output untouched), otherwise as
    one green line "    [<duration, %3.3f> secs]" printed to standard output
    (the log untouched). *)
Theorem scoped_reports_duration_once {R} (body : IO R) self w :
  let t0 := perf_counter_at (perf_reads w) in
  let w1 := (TimeContext.__enter__ self w).2 in
  let rb := (body w1).1 in
  let w2 := (body w1).2 in
  let d := PyFloat (float_sub (perf_counter_at (perf_reads w2)) t0) in
  ∃ self3 w3,
    scoped body self w =
      (match rb with Returns r => Returns (Some r) | Raises e => Raises e end, self3, w3) ∧
    duration self3 = d ∧
    match _logger self with
    | Some logger =>
        log_records w3 =
          log_records w2
          ++ [{| rec_logger := logger; rec_level := INFO;
                 rec_message := (_msg self ++ " takes " ++ format_f 3 3 d ++ " secs")%string |}]
        ∧ stdout w3 = stdout w2
    | None =>
        stdout w3 =
          stdout w2
          ++ [(colored ("    [" ++ format_f 3 3 d ++ " secs]") "green" ++ newline)%string]
        ∧ log_records w3 = log_records w2
    end.
Proof.
  intros t0 w1 rb w2 d. subst t0 w1 rb w2 d.
  unfold scoped, with_stmt. rewrite timecontext_enter_eq. simpl.
  set (w1 := match _logger self with Some _ => tick w | None => _ end).
  destruct (body w1) as [[r|e] w2]; simpl;
    rewrite (timecontext_exit_eq _ _ _ (perf_counter_at (perf_reads w))) by reflexivity; simpl;
    eexists _, _; (split; [reflexivity|]); (split; [reflexivity|]);
    destruct (_logger self); done.
Qed.

(** C10.  Once [__enter__] has set [start], [__exit__] returns [None], which
    is false, whatever exception it is told about; hence in
    [with TimeContext(...): body] an exception raised by the body is raised
    by the statement. *)
Theorem exit_never_suppresses {R} (body : IO R) self w :
  (∀ exc w', is_Some (start self) →
     (TimeContext.__exit__ exc self w').1.1 = Returns PyNone ∧ truthy PyNone = false) ∧
  (∀ e, (body (TimeContext.__enter__ self w).2).1 = Raises e →
     (scoped body self w).1.1 = Raises e).
Proof.
  split.
  - intros exc w' [st Hst]. by rewrite (timecontext_exit_eq _ _ _ st).
  - intros e Hb. unfold scoped, with_stmt. rewrite timecontext_enter_eq in *. simpl in *.
    set (w1 := match _logger self with Some _ => tick w | None => _ end) in *.
    destruct (body w1) as [[r|e'] w2]; simpl in *; [done|].
    rewrite (timecontext_exit_eq _ _ _ (perf_counter_at (perf_reads w))) by reflexivity. simpl.
    congruence.
Qed.
End TimeContextFacts.

Section TimeDictRuns.
#[local] Existing Instance ticks.
Import TimeDict.

(** A reset requested inside two nested regions is carried out by the
    [end()] that closes the outer one. *)
Lemma reset_deferred_until_stack_empty_witness :
  let ops := [Begin "a"; Begin "b"; RequestReset; End] in
  let self := (run ops __init__ world0).1.2 in
  let w := (run ops __init__ world0).2 in
  run ops __init__ world0 = (Returns tt, self, w) ∧
  _pending_reset self = true ∧
  _key_stack self = ["a"] ∧
  TimeDict.__exit__ None self w = (Returns PyNone, __init__, tick w).
Proof.
  intros ops self w.
  assert (run ops __init__ world0 = (Returns tt, self, w)) as Hrun by (vm_compute; reflexivity).
  split; [exact Hrun|]. split; [vm_compute; reflexivity|].
  split; [vm_compute; reflexivity|].
  destruct (reset_deferred_until_stack_empty ops world0 (Returns tt) self w Hrun)
    as (_ & _ & _ & Hlast & _).
  apply (Hlast None "a"); vm_compute; reflexivity.
Defined.

Lemma exit_on_empty_stack_raises_witness :
  _key_stack __init__ = [] ∧
  TimeDict.__exit__ None __init__ world0 = (Raises IndexError, __init__, world0).
Proof.
  split; [vm_compute; reflexivity|].
  apply exit_on_empty_stack_raises. vm_compute; reflexivity.
Defined.

(** After a first [begin("a")] at time 0, whatever a second one does it
    keeps the first start. *)
Lemma first_start_time_written_once_witness :
  let self := (run [Begin "a"] __init__ world0).1.2 in
  let w := (run [Begin "a"] __init__ world0).2 in
  first_start_time self !! "a" = Some 0%Z ∧
  ∀ r self' w',
    step (Begin "a") self w = (r, self', w') →
    first_start_time self' !! "a" = Some 0%Z.
Proof.
  intros self w.
  assert (first_start_time self !! "a" = Some 0%Z) as Hfirst by (vm_compute; reflexivity).
  split; [exact Hfirst|]. intros r self' w' Hs.
  destruct (proj2 (first_start_time_written_once "a" self w)
              0%Z (Begin "a") r self' w' Hfirst Hs) as [Hf|[_ [?|?]]];
    [exact Hf|discriminate..].
Defined.

(** Inside region "a", a [begin("b")] and the [end()] that closes "b"
    leave the entries of "a" alone. *)
Lemma begin_end_frame_witness :
  let ops := [Begin "a"; Begin "b"] in
  let self := (run ops __init__ world0).1.2 in
  let w := (run ops __init__ world0).2 in
  run ops __init__ world0 = (Returns tt, self, w) ∧
  _key_stack self = ["a"] ++ ["b"] ∧
  ∃ self',
    TimeDict.__exit__ None self w = (Returns PyNone, self', tick w) ∧
    _key_stack self' = ["a"] ∧
    start_time self' = start_time self ∧
    end_time self' !! "a" = end_time self !! "a" ∧
    accum_time self' !! "a" = accum_time self !! "a".
Proof.
  intros ops self w.
  assert (run ops __init__ world0 = (Returns tt, self, w)) as Hrun by (vm_compute; reflexivity).
  assert (_key_stack self = ["a"] ++ ["b"]) as Hst0 by (vm_compute; reflexivity).
  split; [exact Hrun|]. split; [exact Hst0|].
  assert (["a"] ≠ ([] : list string)) as Hne by discriminate.
  destruct (begin_end_frame ops world0 (Returns tt) self w Hrun) as [_ Hend].
  destruct (Hend None "b" ["a"] Hst0 (or_intror Hne))
    as (self' & He & Hst & Hstart & _ & _ & Hother).
  exists self'.
  split. { exact He. }
  split. { exact Hst. }
  split. { exact Hstart. }
  apply Hother.
  discriminate.
Defined.

(** Two nested regions of the same key: the stops at 30 and 40 both measure
    from the latest start, 20. *)
Lemma accum_time_sums_intervals_witness :
  let ops := [Begin "a"; Begin "a"; End; End] in
  let self := (run ops __init__ world0).1.2 in
  let w := (run ops __init__ world0).2 in
  Forall (λ o, o ≠ RequestReset) ops ∧
  run ops __init__ world0 = (Returns tt, self, w) ∧
  intervals "a" [] None (timeline ops __init__ world0) = [10; 20]%Z ∧
  read (accum_time self) "a" = total (intervals "a" [] None (timeline ops __init__ world0)).
Proof.
  intros ops self w.
  assert (Forall (λ o, o ≠ RequestReset) ops) as Hops
    by (repeat constructor; discriminate).
  assert (run ops __init__ world0 = (Returns tt, self, w)) as Hrun by (vm_compute; reflexivity).
  split; [exact Hops|]. split; [exact Hrun|]. split; [vm_compute; reflexivity|].
  exact (accum_time_sums_intervals "a" ops world0 self w Hops Hrun).
Defined.
End TimeDictRuns.

Section ProfilingRuns.
#[local] Existing Instance ticks.
#[local] Existing Instance ticks_formatting.

Lemma used_memory_contract_witness :
  (0 < 1024)%Z ∧
  used_memory 1024 world0 = (Returns (PyFloat 4%Z), world0) ∧
  used_memory 1024 world_windows =
    (Returns (PyInt 0),
     set_log_records
       [{| rec_logger := default_logger; rec_level := WARNING;
           rec_message := resource_warning |}] world_windows).
Proof.
  assert (0 < 1024)%Z as Hu by reflexivity.
  split; [exact Hu|]. split.
  - exact (used_memory_contract 1024 world0 Hu).
  - exact (used_memory_contract 1024 world_windows Hu).
Defined.



Lemma exit_never_suppresses_witness :
  let self := TimeContext.__init__ "loop" None in
  is_Some (TimeContext.start (TimeContext.set_start 0%Z self)) ∧
  (TimeContext.__exit__ (Some (UserError "boom"))
     (TimeContext.set_start 0%Z self) world0).1.1 = Returns PyNone ∧
  (__call__ boom tt (TimeContext.__enter__ self world0).2).1 = Raises (UserError "boom") ∧
  (TimeContext.scoped (__call__ boom tt) self world0).1.1 = Raises (UserError "boom").
Proof.
  intros self.
  assert (is_Some (TimeContext.start (TimeContext.set_start 0%Z self))) as Hst by (by eexists).
  assert ((__call__ boom tt (TimeContext.__enter__ self world0).2).1
          = Raises (UserError "boom")) as Hb by reflexivity.
  split; [exact Hst|]. split; [|split; [exact Hb|]].
  - exact (proj1 (proj1 (exit_never_suppresses (__call__ boom tt)
                           (TimeContext.set_start 0%Z self) world0)
                    (Some (UserError "boom")) world0 Hst)).
  - exact (proj2 (exit_never_suppresses (__call__ boom tt) self world0)
             (UserError "boom") Hb).
Defined.
End ProfilingRuns.

(** ** Further properties of the module *)

Section MoreTimeDict.
Context `{Runtime}.
Import TimeDict.
Implicit Types (self : obj) (w : World) (k : string).
#[local] Arguments run : simpl never.
#[local] Arguments step : simpl never.

(** The key stack follows the operations alone: [begin] pushes, [end] pops,
    and neither a deferred nor an executed reset changes it while a region is
    open. *)
Lemma key_stack_open_keys_from ops :
  ∀ self w self' w' opened,
    _key_stack self = rev opened →
    run ops self w = (Returns tt, self', w') →
    _key_stack self' = rev (open_keys ops opened).
Proof.
  induction ops as [|o ops IH]; intros self w self' w' opened Hst Hrun.
  - inversion Hrun; by subst.
  - rewrite run_cons in Hrun. destruct o as [key| |].
    + change (step (Begin key)) with (begin key) in Hrun.
      destruct (begin_start key self w) as (s1 & w1 & Hb & Hst1 & _).
      rewrite Hb in Hrun. apply (IH s1 w1 self' w'); [|done]. simpl. congruence.
    + destruct opened as [|key opened].
      { rewrite step_End_eq, timedict_exit_empty in Hrun by done. done. }
      simpl in Hst.
      rewrite step_End_eq, (timedict_exit_eq _ _ _ (rev opened) key) in Hrun by done.
      simpl. eapply IH; [|exact Hrun].
      destruct (_pending_reset self && bool_decide (rev opened = [])) eqn:E; [|done].
      apply andb_prop in E as [_ E]. apply bool_decide_eq_true in E. by rewrite E.
    + change (step RequestReset) with reset in Hrun. rewrite reset_eq in Hrun.
      simpl. eapply IH; [|exact Hrun].
      case_bool_decide as E; [done|]. simpl. congruence.
Qed.

(** After any sequence of operations that runs to its end, the key stack
    holds exactly the keys of the regions still open, outermost first,
    whatever resets were requested on the way. *)
Theorem key_stack_is_open_regions ops w0 self w :
  run ops __init__ w0 = (Returns tt, self, w) →
  _key_stack self = rev (open_keys ops []).
Proof. intros Hrun. by eapply (key_stack_open_keys_from ops __init__ w0). Qed.

(** A sequence of operations can fail in one way only: an [end()] with no
    region open raises [IndexError]; the operations before it have run, the
    failing one has changed nothing, and those after it are not run. *)
Theorem run_fails_only_on_underflow ops self w e self' w' :
  run ops self w = (Raises e, self', w') →
  e = IndexError ∧ _key_stack self' = [] ∧
  ∃ done_ops rest,
    ops = done_ops ++ End :: rest ∧
    run done_ops self w = (Returns tt, self', w').
Proof.
  revert self w. induction ops as [|o ops IH]; intros self w Hrun; [done|].
  rewrite run_cons in Hrun.
  destruct (step_cases o self w) as [(s1 & w1 & Hs)|(-> & Hst & Hs)]; rewrite Hs in Hrun.
  - destruct (IH _ _ Hrun) as (-> & Hst & done_ops & rest & -> & Hdone).
    split; [done|]. split; [done|]. exists (o :: done_ops), rest. split; [done|].
    by rewrite run_cons, Hs.
  - inversion Hrun; subst. split; [done|]. split; [done|]. by exists [], ops.
Qed.

(** One step keeps the key sets of the four dictionaries in line. *)
Lemma dicts_agree_step o self w r self' w' :
  (dom (first_start_time self) = dom (start_time self) ∧
   dom (end_time self) = dom (accum_time self) ∧
   dom (accum_time self) ⊆ dom (start_time self) ∧
   ∀ key, key ∈ _key_stack self → key ∈ dom (start_time self)) →
  step o self w = (r, self', w') →
  dom (first_start_time self') = dom (start_time self') ∧
  dom (end_time self') = dom (accum_time self') ∧
  dom (accum_time self') ⊆ dom (start_time self') ∧
  ∀ key, key ∈ _key_stack self' → key ∈ dom (start_time self').
Proof.
  intros (Hfs & Hea & Has & Hst) Hs. destruct o as [k| |].
  - change (step (Begin k)) with (begin k) in Hs. rewrite begin_eq in Hs.
    assert (∀ key, key ∈ _key_stack self ++ [k] → key ∈ {[k]} ∪ dom (start_time self)) as Hst'.
    { intros key. rewrite elem_of_app, list_elem_of_singleton.
      intros [Hk| ->]; [specialize (Hst _ Hk)|]; set_solver. }
    destruct (first_start_time self !! k) eqn:E; inversion Hs; subst; clear Hs; simpl;
      rewrite ?dom_insert_L.
    + apply elem_of_dom_2 in E. split; [set_solver|]. split; [done|]. split; [set_solver|done].
    + split; [set_solver|]. split; [done|]. split; [set_solver|done].
  - destruct (_key_stack self) as [|a l _] eqn:E using rev_ind.
    + rewrite step_End_eq, timedict_exit_empty in Hs by done. inversion Hs; subst.
      repeat split; try done. rewrite E. by intros ? ?%elem_of_nil.
    + rewrite step_End_eq, (timedict_exit_eq _ _ _ l a) in Hs by done.
      inversion Hs; subst; clear Hs.
      destruct (_pending_reset self && bool_decide (l = [])); simpl.
      { split; [done|]. split; [done|]. split; [done|]. by intros ? ?%elem_of_nil. }
      assert (a ∈ dom (start_time self)) as Ha.
      { apply Hst. rewrite elem_of_app, list_elem_of_singleton. by right. }
      apply elem_of_dom in Ha as [s Hs]. rewrite Hs, !dom_insert_L.
      split; [done|]. split; [set_solver|]. split; [set_solver|].
      intros key Hk. apply Hst. rewrite elem_of_app. by left.
  - change (step RequestReset) with reset in Hs. rewrite reset_eq in Hs.
    inversion Hs; subst; clear Hs. case_bool_decide; simpl; [done|].
    split; [done|]. split; [done|]. split; [done|]. by intros ? ?%elem_of_nil.
Qed.

(** In every state a sequence of operations can reach, the dictionaries agree
    on their keys: [first_start_time] and [start_time] have the same keys,
    [end_time] and [accum_time] have the same keys, every key with an
    accumulated time has a start, and so has every key on the stack. *)
Theorem dicts_agree_on_keys ops w0 r self w :
  run ops __init__ w0 = (r, self, w) →
  dom (first_start_time self) = dom (start_time self) ∧
  dom (end_time self) = dom (accum_time self) ∧
  dom (accum_time self) ⊆ dom (start_time self) ∧
  ∀ key, key ∈ _key_stack self → key ∈ dom (start_time self).
Proof.
  intros Hrun.
  refine (run_invariant (λ s, dom (first_start_time s) = dom (start_time s) ∧
                              dom (end_time s) = dom (accum_time s) ∧
                              dom (accum_time s) ⊆ dom (start_time s) ∧
                              ∀ key, key ∈ _key_stack s → key ∈ dom (start_time s))
            _ ops __init__ w0 r self w _ Hrun).
  - intros; eapply dicts_agree_step; eauto.
  - simpl. split; [done|]. split; [done|]. split; [done|]. by intros ? ?%elem_of_nil.
Qed.

(** [with self:] on an accumulator whose stack is empty, no key having been
    pushed by a call [self(key)]: [__enter__] raises [IndexError], the body
    and [__exit__] do not run, the clock is not read and nothing changes. *)
Theorem with_on_empty_stack_raises {R} (body : IO R) self w :
  _key_stack self = [] →
  with_stmt TimeDict.__enter__ TimeDict.__exit__ body self w = (Raises IndexError, self, w).
Proof.
  intros Hst. unfold with_stmt. by rewrite timedict_enter_empty.
Qed.

(** A key pushed by [self(k)] and popped by [__exit__] with no [__enter__]
    between, for a key that has no start yet: the read [start_time[k]] of the
    [defaultdict] inserts [0.0], so the interval added to [accum_time[k]] is
    the reading of the clock minus [0.0]. *)
Theorem exit_without_enter_measures_from_zero exc k self w :
  _pending_reset self = false →
  start_time self !! k = None →
  ∃ self',
    (TimeDict.__call__ k;; TimeDict.__exit__ exc) self w = (Returns PyNone, self', tick w) ∧
    _key_stack self' = _key_stack self ∧
    start_time self' !! k = Some float_zero ∧
    end_time self' !! k = Some (perf_counter_at (perf_reads w)) ∧
    accum_time self' !! k =
      Some (float_add (read (accum_time self) k)
              (float_sub (perf_counter_at (perf_reads w)) float_zero)).
Proof.
  intros Hp Hk. eexists. unfold mbind at 1, meth_mbind, meth_bind.
  rewrite timedict_call_eq.
  rewrite (timedict_exit_eq _ _ _ (_key_stack self) k) by reflexivity.
  simpl. rewrite Hp. simpl. split; [reflexivity|]. simpl.
  rewrite Hk, !lookup_insert_eq. unfold read. simpl. by rewrite Hk.
Qed.

(** A region of [k] opened inside a region of the same [k]: the inner
    [begin] overwrites [start_time[k]], so both stops measure from the inner
    start and the start of the outer region is lost. *)
Theorem nested_same_key_measures_from_inner_start k self w :
  _pending_reset self = false →
  let first :=
    perf_reads w + match first_start_time self !! k with Some _ => 0 | None => 1 end in
  let t_outer_start := perf_counter_at first in
  let t_inner_start := perf_counter_at (1 + first) in
  let t_inner_stop := perf_counter_at (2 + first) in
  let t_outer_stop := perf_counter_at (3 + first) in
  ∃ self' w',
    run [Begin k; Begin k; End; End] self w = (Returns tt, self', w') ∧
    perf_reads w' = 4 + first ∧
    _key_stack self' = _key_stack self ∧
    start_time self' !! k = Some t_inner_start ∧
    accum_time self' !! k =
      Some (float_add
              (float_add (read (accum_time self) k) (float_sub t_inner_stop t_inner_start))
              (float_sub t_outer_stop t_inner_start)).
Proof.
  intros Hp first t1 t2 t3 t4. subst t1 t2 t3 t4 first.
  rewrite run_cons. change (step (Begin k)) with (begin k). rewrite begin_eq.
  destruct (first_start_time self !! k) as [v|] eqn:Ef; simpl;
    rewrite run_cons; change (step (Begin k)) with (begin k); rewrite begin_eq; simpl;
    rewrite ?Ef, ?lookup_insert_eq; simpl;
    rewrite run_cons, step_End_eq, (timedict_exit_eq _ _ _ (_key_stack self ++ [k]) k)
      by reflexivity;
    simpl; rewrite Hp; simpl;
    rewrite run_cons, step_End_eq, (timedict_exit_eq _ _ _ (_key_stack self) k)
      by reflexivity;
    simpl; rewrite Hp; simpl;
    eexists _, _; (split; [reflexivity|]); simpl;
    rewrite !lookup_insert_eq; unfold read; simpl; rewrite !lookup_insert_eq; simpl;
    rewrite ?Nat.add_0_r, ?Nat.add_1_r; done.
Qed.

(** A region of [b] opened and closed inside a region of another key [a]:
    each key accumulates its own interval, that of [b] between its own start
    and stop, that of [a] from its start, before [b]'s, to its stop, after
    [b]'s. *)
Theorem nested_keys_measure_own_intervals a b self w :
  a ≠ b →
  _pending_reset self = false →
  let a_start :=
    perf_reads w + match first_start_time self !! a with Some _ => 0 | None => 1 end in
  let b_start :=
    1 + a_start + match first_start_time self !! b with Some _ => 0 | None => 1 end in
  let b_stop := 1 + b_start in
  let a_stop := 1 + b_stop in
  ∃ self' w',
    run [Begin a; Begin b; End; End] self w = (Returns tt, self', w') ∧
    perf_reads w' = 1 + a_stop ∧
    _key_stack self' = _key_stack self ∧
    accum_time self' !! b =
      Some (float_add (read (accum_time self) b)
              (float_sub (perf_counter_at b_stop) (perf_counter_at b_start))) ∧
    accum_time self' !! a =
      Some (float_add (read (accum_time self) a)
              (float_sub (perf_counter_at a_stop) (perf_counter_at a_start))).
Proof.
  intros Hab Hp a_start b_start b_stop a_stop. subst a_stop b_stop b_start a_start.
  assert (b ≠ a) as Hba by congruence.
  rewrite run_cons. change (step (Begin a)) with (begin a). rewrite begin_eq.
  destruct (first_start_time self !! a) as [va|] eqn:Ea; simpl;
    rewrite run_cons; change (step (Begin b)) with (begin b); rewrite begin_eq; simpl;
    rewrite ?(lookup_insert_ne _ a b) by done;
    destruct (first_start_time self !! b) as [vb|] eqn:Eb; simpl;
    rewrite run_cons, step_End_eq, (timedict_exit_eq _ _ _ (_key_stack self ++ [a]) b)
      by reflexivity;
    simpl; rewrite Hp; simpl;
    rewrite run_cons, step_End_eq, (timedict_exit_eq _ _ _ (_key_stack self) a)
      by reflexivity;
    simpl; rewrite Hp; simpl;
    eexists _, _; (split; [reflexivity|]); simpl;
    rewrite !lookup_insert_eq; simpl;
    rewrite ?(lookup_insert_ne _ a b), ?(lookup_insert_ne _ b a), ?lookup_insert_eq by done;
    simpl; unfold read; simpl;
    rewrite ?(lookup_insert_ne _ a b), ?(lookup_insert_ne _ b a), ?lookup_insert_eq by done;
    simpl;
    rewrite ?Nat.add_0_r, ?Nat.add_1_r; done.
Qed.

(** Requesting a reset twice in a row is the same as requesting it once,
    deferred or not, and a reset of a fresh accumulator changes nothing. *)
Theorem reset_idempotent self w :
  (reset;; reset) self w = reset self w ∧
  reset __init__ w = (Returns tt, __init__, w).
Proof.
  split; [|reflexivity].
  unfold mbind at 1, meth_mbind, meth_bind. rewrite reset_eq.
  case_bool_decide as E.
  - rewrite reset_eq. simpl. by rewrite bool_decide_true.
  - reflexivity.
Qed.
End MoreTimeDict.

Section MoreProfiling.
Context `{Formatting} {Args R : Type}.
Implicit Types (w : World) (func : PyFunction Args R) (args : Args).

(** [used_memory] for every unit: without the [resource] module it returns
    [0] and logs the warning, whatever the unit, also [0]; with the module it
    raises [ZeroDivisionError] for the unit [0] and otherwise returns the
    quotient; in the last two cases the world is untouched. *)
Theorem used_memory_raises_only_on_zero_unit unit w :
  used_memory unit w =
    match ru_maxrss w with
    | None =>
        (Returns (PyInt 0),
         set_log_records
           (log_records w
            ++ [{| rec_logger := default_logger; rec_level := WARNING;
                   rec_message := resource_warning |}]) w)
    | Some rss =>
        if decide (unit = 0%Z) then (Raises ZeroDivisionError, w)
        else (Returns (PyFloat (int_truediv rss unit)), w)
    end.
Proof.
  destruct (decide (unit = 0%Z)) as [->|Hu].
  - unfold used_memory, try_except_ModuleNotFoundError, import_resource_ru_maxrss,
      truediv, emit.
    py_unfold. by destruct (ru_maxrss w).
  - rewrite used_memory_eq by done. by destruct (ru_maxrss w).
Qed.

Lemma profiling_enabled_start_samples w :
  profiling_enabled (start_samples w) = profiling_enabled w.
Proof.
  unfold profiling_enabled, start_samples, probe_mb. by destruct (ru_maxrss (tick w)).
Qed.

(** A measured call where the [resource] module is missing, before and
    after a call of [func] that returns: [default_logger] receives the
    warning twice, once per memory sample, the first before [func] runs, and
    the profiling line reports the memory as [0] and [0]. *)
Theorem measured_call_without_resource func args w r w2 :
  profiling_enabled w = true →
  ru_maxrss w = None →
  __call__ func args (start_samples w) = (Returns r, w2) →
  ru_maxrss w2 = None →
  let warning :=
    {| rec_logger := default_logger; rec_level := WARNING;
       rec_message := resource_warning |} in
  let elapsed :=
    float_sub (perf_counter_at (perf_reads w2)) (perf_counter_at (perf_reads w)) in
  log_records (start_samples w) = log_records w ++ [warning] ∧
  arg_wrapper func args w =
    (Returns r,
     set_log_records
       (log_records w2 ++ [warning; profile_line func elapsed (PyInt 0) (PyInt 0)])
       (tick w2)).
Proof.
  intros Hon Hno Hcall Hno2 warning elapsed. subst warning elapsed.
  rewrite arg_wrapper_eq, Hon. unfold spec_measured_call.
  rewrite Hcall. unfold start_samples, probe_mb. simpl. rewrite Hno, Hno2. simpl.
  split; [reflexivity|]. by rewrite <- app_assoc.
Qed.

(** [profiling] applied twice, with the toggle on: [func] is still called
    once and its value or failure comes through; when it returns the
    profiling logger receives two lines, one per wrapper, and when it raises
    nothing is added to what [func] left. *)
Theorem profiling_twice func args w :
  profiling_enabled w = true →
  let inner := {| __qualname__ := __qualname__ func; __call__ := arg_wrapper func |} in
  let w1 := start_samples (start_samples w) in
  (arg_wrapper inner args w).1 = (__call__ func args w1).1 ∧
  match (__call__ func args w1).1 with
  | Returns _ =>
      ∃ line1 line2,
        rec_logger line1 = profile_logger ∧ rec_logger line2 = profile_logger ∧
        profile_lines (arg_wrapper inner args w).2 =
          profile_lines (__call__ func args w1).2 ++ [line1; line2]
  | Raises _ => (arg_wrapper inner args w).2 = (__call__ func args w1).2
  end.
Proof.
  intros Hon inner w1. subst inner w1.
  rewrite arg_wrapper_eq, Hon. unfold spec_measured_call at 1 2 3. simpl.
  rewrite arg_wrapper_eq, profiling_enabled_start_samples, Hon.
  unfold spec_measured_call.
  destruct (__call__ func args (start_samples (start_samples w))) as [[r|e] w2];
    simpl; [|done].
  destruct (probe_mb (tick w2)) as [m3 w3] eqn:E3. simpl.
  set (w4 := set_log_records _ w3).
  destruct (probe_mb (tick w4)) as [m5 w5] eqn:E5. simpl.
  split; [done|]. eexists _, _. split; [|split]; [| |rewrite profile_lines_set_log, filter_app].
  3: { rewrite filter_cons_True, filter_nil by done.
       assert (profile_lines w5 = profile_lines w4) as H5.
       { change w5 with (m5, w5).2. by rewrite <- E5, profile_lines_probe_mb. }
       assert (profile_lines w3 = profile_lines w2) as H3.
       { change w3 with (m3, w3).2. by rewrite <- E3, profile_lines_probe_mb. }
       unfold profile_lines in H5 at 1. rewrite H5. unfold w4.
       rewrite profile_lines_set_log, filter_app, filter_cons_True, filter_nil by done.
       unfold profile_lines in H3 at 1. rewrite H3, <- app_assoc. reflexivity. }
  all: reflexivity.
Qed.
End MoreProfiling.

Section MoreTimeContext.
Context `{Formatting}.
Import TimeContext.
Implicit Types (self : obj) (w : World).

(** [__exit__] on a timer that was never entered reads the clock and then
    raises [AttributeError], [start] not being set: nothing is stored on the
    instance and nothing is logged or printed. *)
Theorem exit_before_enter_raises exc msg logger w :
  TimeContext.__exit__ exc (__init__ msg logger) w =
    (Raises AttributeError, __init__ msg logger, tick w).
Proof. by apply timecontext_exit_no_start. Qed.

(** What [with TimeContext(...): body] does around the body: on entry one
    reading of the clock, and the line "<msg> ...<tab>" on standard output
    exactly when there is no logger; on exit one reading of the clock; the
    environment, the memory figures and the client's state are never
    touched, [_msg] and [_logger] are kept and [start] is the reading made on
    entry. *)
Theorem scoped_frame {R} (body : IO R) self w :
  let w1 := (TimeContext.__enter__ self w).2 in
  let w2 := (body w1).2 in
  let self3 := (scoped body self w).1.2 in
  let w3 := (scoped body self w).2 in
  (perf_reads w1 = S (perf_reads w) ∧ log_records w1 = log_records w ∧
   environ w1 = environ w ∧ ru_maxrss w1 = ru_maxrss w ∧ client w1 = client w ∧
   stdout w1 =
     stdout w ++ match _logger self with
                 | Some _ => []
                 | None => [(_msg self ++ " ..." ++ tab)%string]
                 end) ∧
  (perf_reads w3 = S (perf_reads w2) ∧
   environ w3 = environ w2 ∧ ru_maxrss w3 = ru_maxrss w2 ∧ client w3 = client w2) ∧
  (_msg self3 = _msg self ∧ _logger self3 = _logger self ∧
   start self3 = Some (perf_counter_at (perf_reads w))).
Proof.
  intros w1 w2 self3 w3. subst w1 w2 self3 w3.
  unfold scoped, with_stmt. rewrite timecontext_enter_eq. simpl.
  set (w1 := match _logger self with Some _ => tick w | None => _ end).
  assert (perf_reads w1 = S (perf_reads w) ∧ log_records w1 = log_records w ∧
          environ w1 = environ w ∧ ru_maxrss w1 = ru_maxrss w ∧ client w1 = client w ∧
          stdout w1 =
            stdout w ++ match _logger self with
                        | Some _ => []
                        | None => [(_msg self ++ " ..." ++ tab)%string]
                        end) as H1.
  { unfold w1. destruct (_logger self); simpl; by rewrite ?app_nil_r. }
  split; [exact H1|].
  destruct (body w1) as [[r|e] w2]; simpl;
    rewrite (timecontext_exit_eq _ _ _ (perf_counter_at (perf_reads w))) by reflexivity;
    simpl; destruct (_logger self); done.
Qed.
End MoreTimeContext.

Section MoreRuns.
#[local] Existing Instance ticks.
#[local] Existing Instance ticks_formatting.
Import TimeDict.

Lemma key_stack_is_open_regions_witness :
  let ops := [Begin "a"; Begin "b"; RequestReset; End; Begin "c"] in
  let self := (run ops __init__ world0).1.2 in
  let w := (run ops __init__ world0).2 in
  run ops __init__ world0 = (Returns tt, self, w) ∧
  open_keys ops [] = ["c"; "a"] ∧
  _key_stack self = rev (open_keys ops []).
Proof.
  intros ops self w.
  assert (run ops __init__ world0 = (Returns tt, self, w)) as Hrun by (vm_compute; reflexivity).
  split; [exact Hrun|]. split; [reflexivity|].
  exact (key_stack_is_open_regions ops world0 self w Hrun).
Defined.

Lemma run_fails_only_on_underflow_witness :
  let ops := [Begin "a"; End; End; Begin "b"] in
  let self := (run ops __init__ world0).1.2 in
  let w := (run ops __init__ world0).2 in
  run ops __init__ world0 = (Raises IndexError, self, w) ∧
  _key_stack self = [] ∧
  ∃ done_ops rest,
    ops = done_ops ++ End :: rest ∧
    run done_ops __init__ world0 = (Returns tt, self, w).
Proof.
  intros ops self w.
  assert (run ops __init__ world0 = (Raises IndexError, self, w)) as Hrun
    by (vm_compute; reflexivity).
  split; [exact Hrun|].
  exact (proj2 (run_fails_only_on_underflow ops __init__ world0 IndexError self w Hrun)).
Defined.

Lemma dicts_agree_on_keys_witness :
  let ops := [Begin "a"; Begin "b"; End] in
  let self := (run ops __init__ world0).1.2 in
  let w := (run ops __init__ world0).2 in
  run ops __init__ world0 = (Returns tt, self, w) ∧
  dom (first_start_time self) = dom (start_time self) ∧
  dom (end_time self) = dom (accum_time self) ∧
  dom (accum_time self) ⊆ dom (start_time self) ∧
  ∀ key, key ∈ _key_stack self → key ∈ dom (start_time self).
Proof.
  intros ops self w.
  assert (run ops __init__ world0 = (Returns tt, self, w)) as Hrun by (vm_compute; reflexivity).
  split; [exact Hrun|].
  exact (dicts_agree_on_keys ops world0 (Returns tt) self w Hrun).
Defined.

Lemma with_on_empty_stack_raises_witness :
  _key_stack __init__ = [] ∧
  with_stmt TimeDict.__enter__ TimeDict.__exit__ (io_ret 42%Z) __init__ world0 =
    (Raises IndexError, __init__, world0).
Proof.
  assert (_key_stack __init__ = []) as Hst by reflexivity.
  split; [exact Hst|].
  exact (with_on_empty_stack_raises (io_ret 42%Z) __init__ world0 Hst).
Defined.

Lemma exit_without_enter_measures_from_zero_witness :
  _pending_reset __init__ = false ∧
  start_time __init__ !! "a" = None ∧
  ∃ self',
    (TimeDict.__call__ "a";; TimeDict.__exit__ None) __init__ (tick world0)
      = (Returns PyNone, self', tick (tick world0)) ∧
    _key_stack self' = [] ∧
    start_time self' !! "a" = Some 0%Z ∧
    end_time self' !! "a" = Some 10%Z ∧
    accum_time self' !! "a" = Some 10%Z.
Proof.
  assert (_pending_reset __init__ = false) as Hp by reflexivity.
  assert (start_time __init__ !! "a" = None) as Hk by reflexivity.
  split; [exact Hp|]. split; [exact Hk|].
  exact (exit_without_enter_measures_from_zero None "a" __init__ (tick world0) Hp Hk).
Defined.

Lemma nested_same_key_measures_from_inner_start_witness :
  _pending_reset __init__ = false ∧
  ∃ self' w',
    run [Begin "a"; Begin "a"; End; End] __init__ world0 = (Returns tt, self', w') ∧
    perf_reads w' = 5 ∧
    _key_stack self' = [] ∧
    start_time self' !! "a" = Some 20%Z ∧
    accum_time self' !! "a" = Some (0 + (30 - 20) + (40 - 20))%Z.
Proof.
  assert (_pending_reset __init__ = false) as Hp by reflexivity.
  split; [exact Hp|].
  exact (nested_same_key_measures_from_inner_start "a" __init__ world0 Hp).
Defined.

Lemma nested_keys_measure_own_intervals_witness :
  "a" ≠ "b" ∧
  _pending_reset __init__ = false ∧
  ∃ self' w',
    run [Begin "a"; Begin "b"; End; End] __init__ world0 = (Returns tt, self', w') ∧
    perf_reads w' = 6 ∧
    _key_stack self' = [] ∧
    accum_time self' !! "b" = Some (0 + (40 - 30))%Z ∧
    accum_time self' !! "a" = Some (0 + (50 - 10))%Z.
Proof.
  assert ("a" ≠ "b") as Hab by discriminate.
  assert (_pending_reset __init__ = false) as Hp by reflexivity.
  split; [exact Hab|]. split; [exact Hp|].
  exact (nested_keys_measure_own_intervals "a" "b" __init__ world0 Hab Hp).
Defined.

End MoreRuns.

Section MoreProfilingRuns.
#[local] Existing Instance ticks.
#[local] Existing Instance ticks_formatting.

Lemma measured_call_without_resource_witness :
  let w := world_on_windows in
  let w2 := start_samples w in
  let warning :=
    {| rec_logger := default_logger; rec_level := WARNING;
       rec_message := resource_warning |} in
  profiling_enabled w = true ∧
  ru_maxrss w = None ∧
  __call__ answer tt (start_samples w) = (Returns 42%Z, w2) ∧
  ru_maxrss w2 = None ∧
  log_records (start_samples w) = [warning] ∧
  arg_wrapper answer tt w =
    (Returns 42%Z,
     set_log_records
       ([warning] ++ [warning; profile_line answer (10 - 0)%Z (PyInt 0) (PyInt 0)])
       (tick w2)).
Proof.
  intros w w2 warning.
  assert (profiling_enabled w = true) as Hon by (vm_compute; reflexivity).
  assert (ru_maxrss w = None) as Hno by reflexivity.
  assert (__call__ answer tt (start_samples w) = (Returns 42%Z, w2)) as Hcall by reflexivity.
  assert (ru_maxrss w2 = None) as Hno2 by reflexivity.
  split; [exact Hon|]. split; [exact Hno|]. split; [exact Hcall|]. split; [exact Hno2|].
  exact (measured_call_without_resource answer tt w 42%Z w2 Hon Hno Hcall Hno2).
Defined.

Lemma profiling_twice_witness :
  profiling_enabled world_on = true ∧
  let inner := {| __qualname__ := "answer"; __call__ := arg_wrapper answer |} in
  (arg_wrapper inner tt world_on).1 = Returns 42%Z ∧
  ∃ line1 line2,
    rec_logger line1 = profile_logger ∧ rec_logger line2 = profile_logger ∧
    profile_lines (arg_wrapper inner tt world_on).2 =
      profile_lines (__call__ answer tt (start_samples (start_samples world_on))).2
      ++ [line1; line2].
Proof.
  assert (profiling_enabled world_on = true) as Hon by (vm_compute; reflexivity).
  split; [exact Hon|].
  exact (profiling_twice answer tt world_on Hon).
Defined.
End MoreProfilingRuns.
